(** * project3.py: users, products and orders over a relational store

    A shallow embedding of the Flask application of [src/project3.py]:
    the three mapped classes and the [order_product] association table,
    the three marshmallow schemas (with the fields that
    [SQLAlchemyAutoSchema] derives from the mapped classes), and the
    request handlers, as functions from a store to an outcome and a
    store.

    What the embedding takes from the libraries the program runs on:
    - the relational engine is a store of row lists that enforces the
      constraints the mapped classes declare (primary keys, NOT NULL,
      UNIQUE, foreign keys, string lengths, with exact string
      comparison); an unordered SELECT returns the rows of a table in
      the order in which they were inserted;
    - the coercions of marshmallow's Integer, Float and DateTime fields
      and the pattern of its Email validator are parameters
      ([Runtime]);
    - a write payload that carries a relationship collection (the key
      [orders]) is outside the embedding: [load] answers [Uncovered]. *)

From Stdlib Require Import ZArith String List Floats.SpecFloat.
From stdpp Require Import base option list gmap strings pretty.

Local Open Scope Z_scope.
Local Set Warnings "-register-all".

(** ** Python values *)

(** The values that travel between the wire and the handlers: what
    [request.get_json()] returns, what a schema dumps and what a handler
    gives to [jsonify]. A set is a Python value but has no JSON form. *)
Inductive pyval :=
| PNone
| PBool (b : bool)
| PInt (z : Z)
| PFloat (f : spec_float)
| PStr (s : string)
| PList (l : list pyval)
| PDict (m : gmap string pyval)
| PSet (l : list pyval).

Inductive exn :=
| TypeError
| ValueError
| RecursionError
| IntegrityError
| DataError.

(** A computation that returns or raises. *)
Inductive result (A : Type) :=
| Ok (a : A)
| Raise (e : exn).
Arguments Ok {A} a.
Arguments Raise {A} e.

#[global] Instance result_ret : MRet result := fun A a => Ok a.
#[global] Instance result_bind : MBind result := fun A B f m =>
  match m with
  | Ok a => f a
  | Raise e => Raise e
  end.
#[global] Instance result_fmap : FMap result := fun A B f m =>
  match m with
  | Ok a => Ok (f a)
  | Raise e => Raise e
  end.

Fixpoint mapM {A B : Type} (f : A -> result B) (l : list A) : result (list B) :=
  match l with
  | [] => Ok []
  | x :: l' => y ← f x; ys ← mapM f l'; Ok (y :: ys)
  end.

(** [flask.json]: every JSON value is serialisable, a set is not. *)
Fixpoint serialisable (v : pyval) : bool :=
  match v with
  | PList l => forallb serialisable l
  | PDict m => map_fold (fun _ v' b => serialisable v' && b) true m
  | PSet _ => false
  | _ => true
  end.

Definition jsonify (v : pyval) : result pyval :=
  if serialisable v then Ok v else Raise TypeError.

(** ** datetime *)

Record datetime := Datetime {
  year : Z; month : Z; day : Z;
  hour : Z; minute : Z; second : Z; microsecond : Z
}.

Definition digit (z : Z) : string :=
  String (Ascii.ascii_of_N (48 + Z.to_N (z mod 10))) EmptyString.

(** [z] printed in [w] decimal digits, zero padded. *)
Fixpoint digits (w : nat) (z : Z) : string :=
  match w with
  | O => EmptyString
  | S w' => digits w' (z / 10) +:+ digit z
  end.

Definition isoformat (d : datetime) : string :=
  digits 4 (year d) +:+ "-" +:+ digits 2 (month d) +:+ "-" +:+ digits 2 (day d)
  +:+ "T" +:+ digits 2 (hour d) +:+ ":" +:+ digits 2 (minute d)
  +:+ ":" +:+ digits 2 (second d)
  +:+ (if microsecond d =? 0 then "" else "." +:+ digits 6 (microsecond d)).

(** ** Models *)

Module User.
Record t := mk {
  id : Z;
  name : string;
  address : string;
  email : string
}.
End User.

Module Order.
Record t := mk {
  id : Z;
  order_date : datetime;
  user_id : Z
}.
End Order.

Module Product.
Record t := mk {
  id : Z;
  product_name : string;
  price : spec_float
}.
End Product.

(** The database: the four tables, and the AUTO_INCREMENT counters of
    the three tables with a surrogate key. *)
Record store := Store {
  users : list User.t;
  orders : list Order.t;
  products : list Product.t;
  order_product : list (Z * Z);
  users_auto_increment : Z;
  orders_auto_increment : Z;
  products_auto_increment : Z
}.

(** [db.session.get(Model, id)] *)
Definition get_User (s : store) (i : Z) : option User.t :=
  find (fun u => User.id u =? i) (users s).
Definition get_Order (s : store) (i : Z) : option Order.t :=
  find (fun o => Order.id o =? i) (orders s).
Definition get_Product (s : store) (i : Z) : option Product.t :=
  find (fun p => Product.id p =? i) (products s).

(** The relationships. *)
Definition User_orders (s : store) (u : User.t) : list Order.t :=
  List.filter (fun o => Order.user_id o =? User.id u) (orders s).
Definition Order_user (s : store) (o : Order.t) : option User.t :=
  get_User s (Order.user_id o).
Definition Order_products (s : store) (o : Order.t) : list Product.t :=
  omap (fun '(oid, pid) => if oid =? Order.id o then get_Product s pid else None)
       (order_product s).
Definition Product_orders (s : store) (p : Product.t) : list Order.t :=
  omap (fun '(oid, pid) => if pid =? Product.id p then get_Order s oid else None)
       (order_product s).

(** A mapped instance, and what [getattr] gives on one. *)
Inductive obj :=
| OUser (u : User.t)
| OOrder (o : Order.t)
| OProduct (p : Product.t).

Inductive attr :=
| AMissing
| ANone
| AInt (z : Z)
| AStr (s : string)
| AFloat (f : spec_float)
| ADate (d : datetime)
| AObj (o : obj)
| AList (l : list obj).

Definition getattr (s : store) (o : obj) (a : string) : attr :=
  match o with
  | OUser u =>
      match a with
      | "id" => AInt (User.id u)
      | "name" => AStr (User.name u)
      | "address" => AStr (User.address u)
      | "email" => AStr (User.email u)
      | "orders" => AList (map OOrder (User_orders s u))
      | _ => AMissing
      end
  | OOrder o =>
      match a with
      | "id" => AInt (Order.id o)
      | "order_date" => ADate (Order.order_date o)
      | "user_id" => AInt (Order.user_id o)
      | "user" => match Order_user s o with
                  | Some u => AObj (OUser u)
                  | None => ANone
                  end
      | "products" => AList (map OProduct (Order_products s o))
      | _ => AMissing
      end
  | OProduct p =>
      match a with
      | "id" => AInt (Product.id p)
      | "product_name" => AStr (Product.product_name p)
      | "price" => AFloat (Product.price p)
      | "orders" => AList (map OOrder (Product_orders s p))
      | _ => AMissing
      end
  end.

(** The declarations of the mapped classes, as the schemas read them. *)
Inductive coltype :=
| sa_Integer
| sa_String (length : nat)
| sa_Float
| sa_DateTime.

Record column := Column {
  col_name : string;
  col_type : coltype;
  primary_key : bool;
  nullable : bool;
  unique : bool;
  foreign_key : option string;
  has_default : bool
}.

Record relationship := Relationship {
  rel_name : string;
  rel_target : string;
  secondary : option string
}.

Inductive model := User_model | Order_model | Product_model.

Definition tablename (m : model) : string :=
  match m with
  | User_model => "users"
  | Order_model => "orders"
  | Product_model => "products"
  end.

Definition columns (m : model) : list column :=
  match m with
  | User_model =>
      [ Column "id" sa_Integer true false false None true;
        Column "name" (sa_String 100) false false false None false;
        Column "address" (sa_String 200) false false false None false;
        Column "email" (sa_String 120) false false true None false ]
  | Order_model =>
      [ Column "id" sa_Integer true false false None true;
        Column "order_date" sa_DateTime false false false None true;
        Column "user_id" sa_Integer false false false (Some "users.id") false ]
  | Product_model =>
      [ Column "id" sa_Integer true false false None true;
        Column "product_name" (sa_String 100) false false false None false;
        Column "price" sa_Float false false false None false ]
  end.

Definition relationships (m : model) : list relationship :=
  match m with
  | User_model => [ Relationship "orders" "Order" None ]
  | Order_model =>
      [ Relationship "user" "User" None;
        Relationship "products" "Product" (Some "order_product") ]
  | Product_model => [ Relationship "orders" "Order" (Some "order_product") ]
  end.

(** ** Schemas *)

Inductive validator :=
| Length (min max : option nat).

Record kwargs := Kwargs {
  required : bool;
  allow_none : bool;
  validate : list validator;
  dump_only : bool
}.

Definition kw : kwargs := Kwargs false false [] false.

Inductive schema_class := UserSchema | OrderSchema | ProductSchema.

Inductive scalar := Integer | Str | Float | DateTime | Email.

Module fields.
Inductive t :=
| Scalar (k : scalar) (o : kwargs)
| Nested (sc : schema_class) (only : list string) (o : kwargs)
| List (inner : t) (o : kwargs)
| Related (o : kwargs).

Definition opts (f : t) : kwargs :=
  match f with
  | Scalar _ o | Nested _ _ o | List _ o | Related o => o
  end.
End fields.

Record meta := Meta {
  meta_model : model;
  load_instance : bool;
  include_relationships : bool;
  include_fk : bool
}.

Definition Meta_of (sc : schema_class) : meta :=
  match sc with
  | ProductSchema => Meta Product_model true true false
  | OrderSchema => Meta Order_model true true true
  | UserSchema => Meta User_model true true true
  end.

(** The fields a schema class declares in its body. *)
Definition declared (sc : schema_class) : list (string * fields.t) :=
  match sc with
  | ProductSchema =>
      [ ("orders",
         fields.List
           (fields.Nested OrderSchema ["id"; "order_date"; "user_id"]
              (Kwargs false false [] true)) kw) ]
  | OrderSchema =>
      [ ("user",
         fields.Nested UserSchema ["id"; "name"; "email"]
           (Kwargs false false [] true));
        ("products",
         fields.List
           (fields.Nested ProductSchema ["id"; "product_name"; "price"]
              (Kwargs false false [] true)) kw) ]
  | UserSchema =>
      [ ("email", fields.Scalar Email (Kwargs true false [] false));
        ("address",
         fields.Scalar Str (Kwargs false false [Length (Some 5%nat) (Some 150%nat)] false));
        ("orders",
         fields.List
           (fields.Nested OrderSchema ["id"; "order_date"]
              (Kwargs false false [] true)) kw) ]
  end.

(** [ModelConverter]: the field derived from a column. *)
Definition column2field (c : column) : fields.t :=
  fields.Scalar
    match col_type c with
    | sa_Integer => Integer
    | sa_String _ => Str
    | sa_Float => Float
    | sa_DateTime => DateTime
    end
    {| required := negb (nullable c) && negb (has_default c);
       allow_none := nullable c;
       validate := match col_type c with
                   | sa_String n => [Length None (Some n)]
                   | _ => []
                   end;
       dump_only := false |}.

(** [fields_for_model]: a column with a foreign key is left out unless
    [include_fk], a relationship unless [include_relationships]; a field
    declared under the same name takes the place of the derived one. *)
Definition fields_for_model (m : model) (fk rels : bool)
    (base_fields : list (string * fields.t)) : list (string * fields.t) :=
  let known k := bool_decide (k ∈ base_fields.*1) in
  omap (fun c =>
          if negb fk && bool_decide (is_Some (foreign_key c)) then None
          else if known (col_name c) then None
          else Some (col_name c, column2field c))
       (columns m)
  ++ omap (fun r =>
             if negb rels then None
             else if known (rel_name r) then None
             else Some (rel_name r, fields.Related kw))
          (relationships m).

(** The declared fields of a schema class: those of its body, then the
    derived ones. *)
Definition schema_fields (sc : schema_class) : list (string * fields.t) :=
  let mt := Meta_of sc in
  declared sc
  ++ fields_for_model (meta_model mt) (include_fk mt) (include_relationships mt)
       (declared sc).

Definition dump_fields (sc : schema_class) : list (string * fields.t) :=
  schema_fields sc.

Definition load_fields (sc : schema_class) : list (string * fields.t) :=
  List.filter (fun '(_, f) => negb (dump_only (fields.opts f))) (schema_fields sc).

(** [only]: the fields of a schema instance; a name that is not a field
    of the class is refused when the instance is made. *)
Definition select (only : option (list string)) (fs : list (string * fields.t))
    : result (list (string * fields.t)) :=
  match only with
  | None => Ok fs
  | Some names =>
      if forallb (fun n => bool_decide (n ∈ fs.*1)) names
      then Ok (List.filter (fun '(k, _) => bool_decide (k ∈ names)) fs)
      else Raise ValueError
  end.

(** *** dump *)

Definition serialize_scalar (k : scalar) (a : attr) : result pyval :=
  match k, a with
  | _, ANone => Ok PNone
  | Integer, AInt z => Ok (PInt z)
  | (Str | Email), AStr s => Ok (PStr s)
  | Float, AFloat f => Ok (PFloat f)
  | DateTime, ADate d => Ok (PStr (isoformat d))
  | _, _ => Raise TypeError
  end.

(** The primary key of a related instance, which a derived relationship
    field dumps. *)
Definition primary_key_of (o : obj) : Z :=
  match o with
  | OUser u => User.id u
  | OOrder o => Order.id o
  | OProduct p => Product.id p
  end.

(** [Field.serialize]; [nested] dumps an instance through a nested
    schema instance. The answer [None] is marshmallow's [missing]. *)
Fixpoint serialize (nested : schema_class -> option (list string) -> obj -> result pyval)
    (f : fields.t) (a : attr) : result (option pyval) :=
  match a with
  | AMissing => Ok None
  | _ =>
      match f with
      | fields.Scalar k _ => Some <$> serialize_scalar k a
      | fields.Nested sc only _ =>
          match a with
          | ANone => Ok (Some PNone)
          | AObj o => Some <$> nested sc (Some only) o
          | _ => Raise TypeError
          end
      | fields.List inner _ =>
          match a with
          | ANone => Ok (Some PNone)
          | AList l =>
              vs ← mapM (fun o => v ← serialize nested inner (AObj o);
                                  Ok (default PNone v)) l;
              Ok (Some (PList vs))
          | _ => Raise TypeError
          end
      | fields.Related _ =>
          match a with
          | ANone => Ok (Some PNone)
          | AObj o => Ok (Some (PInt (primary_key_of o)))
          | AList l => Ok (Some (PList (map (fun o => PInt (primary_key_of o)) l)))
          | _ => Raise TypeError
          end
      end
  end.

Fixpoint dump_items (ser : fields.t -> attr -> result (option pyval))
    (get : string -> attr) (fs : list (string * fields.t))
    : result (gmap string pyval) :=
  match fs with
  | [] => Ok ∅
  | (k, f) :: fs' =>
      v ← ser f (get k);
      m ← dump_items ser get fs';
      Ok (match v with
          | Some v => <[k := v]> m
          | None => m
          end)
  end.

(** [Schema.dump] of one instance, through the schema instance
    [sc(only=only)]. Nested schemas nest calls; [depth] bounds the
    nesting, as the interpreter's recursion limit does. *)
Fixpoint dump (depth : nat) (s : store) (sc : schema_class)
    (only : option (list string)) (o : obj) : result pyval :=
  match depth with
  | O => Raise RecursionError
  | S d =>
      fs ← select only (dump_fields sc);
      m ← dump_items (serialize (dump d s)) (getattr s o) fs;
      Ok (PDict m)
  end.

(** The nesting bound under which the handlers dump. *)
Definition recursion_limit : nat := 1000.

(** A schema instance: [UserSchema()], [UserSchema(many=True)], ... *)
Record schema := Schema {
  cls : schema_class;
  many : bool
}.

Definition user_schema := Schema UserSchema false.
Definition users_schema := Schema UserSchema true.
Definition order_schema := Schema OrderSchema false.
Definition orders_schema := Schema OrderSchema true.
Definition product_schema := Schema ProductSchema false.
Definition products_schema := Schema ProductSchema true.

Definition Schema_dump (s : store) (sch : schema) (x : attr) : result pyval :=
  match many sch, x with
  | false, AObj o => dump recursion_limit s (cls sch) None o
  | true, AList l => PList <$> mapM (dump recursion_limit s (cls sch) None) l
  | _, _ => Raise TypeError
  end.

(** [schema.jsonify(x)] *)
Definition Schema_jsonify (s : store) (sch : schema) (x : attr) : result pyval :=
  v ← Schema_dump s sch x; jsonify v.

(** *** load *)

(** The parts of marshmallow the program relies on without declaring
    them: the coercion of a wire value by an Integer, a Float and a
    DateTime field (the value, or the message of the error), and the
    pattern of the Email validator. *)
Class Runtime := {
  integer_field : pyval -> string + Z;
  float_field : pyval -> string + spec_float;
  datetime_field : pyval -> string + datetime;
  email_pattern : string -> bool
}.

(** What a field makes of the payload: nothing (the key is absent and
    may be), a value, the messages of a [ValidationError], or, for a
    relationship that the payload gives a value to, a collection of
    nested instances, which the embedding does not follow. *)
Inductive field_result :=
| Missing
| Value (a : attr)
| Errors (messages : list string)
| Collection.

(** What [load] makes of the payload: the loaded data, the messages of
    the [ValidationError] it raises, or [Uncovered] when a field
    answered [Collection]. *)
Inductive loaded :=
| Valid (data : gmap string attr)
| Invalid (messages : gmap string (list string))
| Uncovered.

Definition Length_message (min max : option nat) : string :=
  match min, max with
  | Some lo, Some hi =>
      "Length must be between " +:+ pretty lo +:+ " and " +:+ pretty hi +:+ "."
  | Some lo, None => "Shorter than minimum length " +:+ pretty lo +:+ "."
  | None, Some hi => "Longer than maximum length " +:+ pretty hi +:+ "."
  | None, None => ""
  end.

(** [validate.Length.__call__] *)
Definition run_validator (v : validator) (a : attr) : list string :=
  match v, a with
  | Length min max, AStr s =>
      let n := String.length s in
      if match min with Some lo => (n <? lo)%nat | None => false end
         || match max with Some hi => (hi <? n)%nat | None => false end
      then [Length_message min max]
      else []
  | _, _ => []
  end.

Section Load.
Context `{Runtime}.

Definition one (r : string + attr) : list string + attr :=
  match r with
  | inl m => inl [m]
  | inr a => inr a
  end.

(** [Field._deserialize] of the scalar fields. *)
Definition deserialize_scalar (k : scalar) (v : pyval) : list string + attr :=
  match k with
  | Integer => one (sum_map id AInt (integer_field v))
  | Float => one (sum_map id AFloat (float_field v))
  | DateTime => one (sum_map id ADate (datetime_field v))
  | Str | Email =>
      match v with
      | PStr s => inr (AStr s)
      | _ => inl ["Not a valid string."]
      end
  end.

(** The validators of a field: an Email field puts the Email
    validator before the ones it was given. *)
Definition run_validators (k : scalar) (vs : list validator) (a : attr)
    : list string :=
  match k, a with
  | Email, AStr s =>
      if email_pattern s then [] else ["Not a valid email address."]
  | _, _ => []
  end
  ++ concat (map (fun v => run_validator v a) vs).

(** [Field.deserialize] as [Schema._deserialize] calls it: [raw] is
    the value under the key of the field, if any. *)
Definition deserialize (f : fields.t) (partial : bool) (raw : option pyval)
    : field_result :=
  match raw with
  | None =>
      if partial then Missing
      else if required (fields.opts f)
           then Errors ["Missing data for required field."]
           else Missing
  | Some PNone =>
      if allow_none (fields.opts f) then Value ANone
      else Errors ["Field may not be null."]
  | Some v =>
      match f with
      | fields.Scalar k o =>
          match deserialize_scalar k v with
          | inl messages => Errors messages
          | inr a =>
              match run_validators k (validate o) a with
              | [] => Value a
              | messages => Errors messages
              end
          end
      | _ => Collection
      end
  end.

(** The state [Schema._deserialize] threads through the fields: the
    error store, the values loaded so far, and whether a relationship
    collection was met. *)
Record loading := Loading {
  errors : gmap string (list string);
  ret_d : gmap string attr;
  collection : bool
}.

Definition load_field (partial : bool) (m : gmap string pyval)
    (st : loading) (kf : string * fields.t) : loading :=
  match deserialize kf.2 partial (m !! kf.1) with
  | Missing => st
  | Value a => Loading (errors st) (<[kf.1 := a]> (ret_d st)) (collection st)
  | Errors messages =>
      Loading (<[kf.1 := messages]> (errors st)) (ret_d st) (collection st)
  | Collection => Loading (errors st) (ret_d st) true
  end.

(** The keys of the payload that name no field ([unknown=RAISE]). *)
Definition unknown_fields (sc : schema_class) (m : gmap string pyval)
    : gmap string (list string) :=
  (fun _ => ["Unknown field."])
    <$> filter (fun kv => kv.1 ∉ (load_fields sc).*1) m.

(** [Schema.load] up to the [post_load] hook. *)
Definition load (sc : schema_class) (partial : bool) (data : pyval) : loaded :=
  match data with
  | PDict m =>
      let st := fold_left (load_field partial m) (load_fields sc)
                  (Loading ∅ ∅ false) in
      let messages := errors st ∪ unknown_fields sc m in
      if collection st then Uncovered
      else if bool_decide (messages = ∅) then Valid (ret_d st)
      else Invalid messages
  | _ => Invalid {[ "_schema" := ["Invalid input type."] ]}
  end.
End Load.

(** [err.messages] as a value for [jsonify]. *)
Definition messages_body (messages : gmap string (list string)) : pyval :=
  PDict ((fun l => PList (PStr <$> l)) <$> messages).

(** ** The session *)

#[global] Instance datetime_eq_dec : EqDecision datetime.
Proof. solve_decision. Defined.
#[global] Instance spec_float_eq_dec : EqDecision spec_float.
Proof. solve_decision. Defined.
#[global] Instance User_eq_dec : EqDecision User.t.
Proof. solve_decision. Defined.
#[global] Instance Order_eq_dec : EqDecision Order.t.
Proof. solve_decision. Defined.
#[global] Instance Product_eq_dec : EqDecision Product.t.
Proof. solve_decision. Defined.

Definition attr_int (a : option attr) : option Z :=
  match a with
  | Some (AInt z) => Some z
  | _ => None
  end.
Definition attr_str (a : option attr) : option string :=
  match a with
  | Some (AStr s) => Some s
  | _ => None
  end.
Definition attr_float (a : option attr) : option spec_float :=
  match a with
  | Some (AFloat f) => Some f
  | _ => None
  end.

Definition attr_date (a : option attr) : option datetime :=
  match a with
  | Some (ADate d) => Some d
  | _ => None
  end.

Definition set_users (s : store) (l : list User.t) (auto : Z) : store :=
  Store l (orders s) (products s) (order_product s)
        auto (orders_auto_increment s) (products_auto_increment s).
Definition set_orders (s : store) (l : list Order.t) (auto : Z) : store :=
  Store (users s) l (products s) (order_product s)
        (users_auto_increment s) auto (products_auto_increment s).
Definition set_products (s : store) (l : list Product.t) (auto : Z) : store :=
  Store (users s) (orders s) l (order_product s)
        (users_auto_increment s) (orders_auto_increment s) auto.
Definition set_order_product (s : store) (l : list (Z * Z)) : store :=
  Store (users s) (orders s) (products s) l
        (users_auto_increment s) (orders_auto_increment s) (products_auto_increment s).

(** [setattr(instance, key, value)] for every item of the loaded data. *)
Definition User_setattrs (u : User.t) (data : gmap string attr) : User.t :=
  User.mk (default (User.id u) (attr_int (data !! "id")))
          (default (User.name u) (attr_str (data !! "name")))
          (default (User.address u) (attr_str (data !! "address")))
          (default (User.email u) (attr_str (data !! "email"))).

Definition Order_setattrs (o : Order.t) (data : gmap string attr) : Order.t :=
  Order.mk (default (Order.id o) (attr_int (data !! "id")))
           (default (Order.order_date o) (attr_date (data !! "order_date")))
           (default (Order.user_id o) (attr_int (data !! "user_id"))).

Definition Product_setattrs (p : Product.t) (data : gmap string attr) : Product.t :=
  Product.mk (default (Product.id p) (attr_int (data !! "id")))
             (default (Product.product_name p) (attr_str (data !! "product_name")))
             (default (Product.price p) (attr_float (data !! "price"))).

(** A string fits a column of type [String(n)]; an UPDATE sets the
    columns that changed, and only those are checked. *)
Definition fits (n : nat) (s : string) : bool := (String.length s <=? n)%nat.
Definition set_fits (n : nat) (old new : string) : bool :=
  String.eqb new old || fits n new.

(** The flush of a new user made from the loaded data: INSERT INTO
    users. An attribute the data does not give is NULL, and the id the
    next AUTO_INCREMENT value. *)
Definition insert_User (s : store) (data : gmap string attr)
    : result (User.t * store) :=
  match attr_str (data !! "name"), attr_str (data !! "address"),
        attr_str (data !! "email") with
  | Some n, Some a, Some e =>
      let i := default (users_auto_increment s) (attr_int (data !! "id")) in
      if negb (fits 100 n && fits 200 a && fits 120 e) then Raise DataError
      else if existsb (fun r => User.id r =? i) (users s) then Raise IntegrityError
      else if existsb (fun r => String.eqb (User.email r) e) (users s)
           then Raise IntegrityError
      else let u := User.mk i n a e in
           Ok (u, set_users s (users s ++ [u]) (Z.max (users_auto_increment s) (i + 1)))
  | _, _, _ => Raise IntegrityError
  end.

(** The flush of a changed persistent user: UPDATE users ... WHERE id =
    the id it was loaded under. No statement when nothing changed. *)
Definition update_User (s : store) (old new : User.t) : result store :=
  if bool_decide (new = old) then Ok s
  else if negb (set_fits 100 (User.name old) (User.name new)
                && set_fits 200 (User.address old) (User.address new)
                && set_fits 120 (User.email old) (User.email new))
       then Raise DataError
  else if negb (User.id new =? User.id old)
          && (existsb (fun r => User.id r =? User.id new) (users s)
              || existsb (fun o => Order.user_id o =? User.id old) (orders s))
       then Raise IntegrityError
  else if negb (String.eqb (User.email new) (User.email old))
          && existsb (fun r => String.eqb (User.email r) (User.email new)) (users s)
       then Raise IntegrityError
  else Ok (set_users s
             (map (fun r => if User.id r =? User.id old then new else r) (users s))
             (users_auto_increment s)).

(** [make_instance], [db.session.add] and [db.session.commit]: the
    instance is the one handed to [load], else the row under the primary
    key of the data, else a new one. *)
Definition save_User (s : store) (instance : option User.t)
    (data : gmap string attr) : result (User.t * store) :=
  match (match instance with
         | Some u => Some u
         | None => i ← attr_int (data !! "id"); get_User s i
         end) with
  | Some u =>
      let u' := User_setattrs u data in
      s' ← update_User s u u'; Ok (u', s')
  | None => insert_User s data
  end.

(** [db.session.delete(user)] and commit: the orders of the user get
    user_id NULL, which the column refuses; else DELETE FROM users. *)
Definition delete_User (s : store) (u : User.t) : result store :=
  if existsb (fun o => Order.user_id o =? User.id u) (orders s)
  then Raise IntegrityError
  else Ok (set_users s
             (List.filter (fun r => negb (User.id r =? User.id u)) (users s))
             (users_auto_increment s)).

(** The flush of a new order: the order date defaults to the time of
    the insert, and the user must exist. *)
Definition insert_Order (now : datetime) (s : store) (data : gmap string attr)
    : result (Order.t * store) :=
  match attr_int (data !! "user_id") with
  | Some u =>
      let i := default (orders_auto_increment s) (attr_int (data !! "id")) in
      let d := default now (attr_date (data !! "order_date")) in
      if existsb (fun r => Order.id r =? i) (orders s) then Raise IntegrityError
      else if negb (existsb (fun r => User.id r =? u) (users s))
           then Raise IntegrityError
      else let o := Order.mk i d u in
           Ok (o, set_orders s (orders s ++ [o]) (Z.max (orders_auto_increment s) (i + 1)))
  | None => Raise IntegrityError
  end.

Definition update_Order (s : store) (old new : Order.t) : result store :=
  if bool_decide (new = old) then Ok s
  else if negb (Order.id new =? Order.id old)
          && (existsb (fun r => Order.id r =? Order.id new) (orders s)
              || existsb (fun l => l.1 =? Order.id old) (order_product s))
       then Raise IntegrityError
  else if negb (Order.user_id new =? Order.user_id old)
          && negb (existsb (fun r => User.id r =? Order.user_id new) (users s))
       then Raise IntegrityError
  else Ok (set_orders s
             (map (fun r => if Order.id r =? Order.id old then new else r) (orders s))
             (orders_auto_increment s)).

Definition save_Order (now : datetime) (s : store) (instance : option Order.t)
    (data : gmap string attr) : result (Order.t * store) :=
  match (match instance with
         | Some o => Some o
         | None => i ← attr_int (data !! "id"); get_Order s i
         end) with
  | Some o =>
      let o' := Order_setattrs o data in
      s' ← update_Order s o o'; Ok (o', s')
  | None => insert_Order now s data
  end.

Definition insert_Product (s : store) (data : gmap string attr)
    : result (Product.t * store) :=
  match attr_str (data !! "product_name"), attr_float (data !! "price") with
  | Some n, Some pr =>
      let i := default (products_auto_increment s) (attr_int (data !! "id")) in
      if negb (fits 100 n) then Raise DataError
      else if existsb (fun r => Product.id r =? i) (products s)
           then Raise IntegrityError
      else let p := Product.mk i n pr in
           Ok (p, set_products s (products s ++ [p])
                    (Z.max (products_auto_increment s) (i + 1)))
  | _, _ => Raise IntegrityError
  end.

Definition update_Product (s : store) (old new : Product.t) : result store :=
  if bool_decide (new = old) then Ok s
  else if negb (set_fits 100 (Product.product_name old) (Product.product_name new))
       then Raise DataError
  else if negb (Product.id new =? Product.id old)
          && (existsb (fun r => Product.id r =? Product.id new) (products s)
              || existsb (fun l => l.2 =? Product.id old) (order_product s))
       then Raise IntegrityError
  else Ok (set_products s
             (map (fun r => if Product.id r =? Product.id old then new else r)
                  (products s))
             (products_auto_increment s)).

Definition save_Product (s : store) (instance : option Product.t)
    (data : gmap string attr) : result (Product.t * store) :=
  match (match instance with
         | Some p => Some p
         | None => i ← attr_int (data !! "id"); get_Product s i
         end) with
  | Some p =>
      let p' := Product_setattrs p data in
      s' ← update_Product s p p'; Ok (p', s')
  | None => insert_Product s data
  end.

(** [db.session.delete(product)] and commit: the rows of the secondary
    table of [Product.orders] go with the product. *)
Definition delete_Product (s : store) (p : Product.t) : store :=
  Store (users s) (orders s)
        (List.filter (fun r => negb (Product.id r =? Product.id p)) (products s))
        (List.filter (fun l => negb (l.2 =? Product.id p)) (order_product s))
        (users_auto_increment s) (orders_auto_increment s) (products_auto_increment s).

(** The row of the association table for a pair. *)
Definition is_link (order_id product_id : Z) (l : Z * Z) : bool :=
  (l.1 =? order_id) && (l.2 =? product_id).

(** [order.products.append(product)] and commit: INSERT INTO
    order_product. *)
Definition link (s : store) (o : Order.t) (p : Product.t) : result store :=
  if existsb (is_link (Order.id o) (Product.id p)) (order_product s)
  then Raise IntegrityError
  else Ok (set_order_product s (order_product s ++ [(Order.id o, Product.id p)])).

(** [order.products.remove(product)] and commit: DELETE FROM
    order_product. *)
Definition unlink (s : store) (o : Order.t) (p : Product.t) : store :=
  set_order_product s
    (List.filter (fun l => negb (is_link (Order.id o) (Product.id p) l))
       (order_product s)).

(** [product in order.products] *)
Definition contains (l : list Product.t) (p : Product.t) : bool :=
  existsb (fun q => Product.id q =? Product.id p) l.

(** ** Routes *)

(** What a request comes to: the pair a handler returns, or the
    exception it lets through, on which the server answers 500. *)
Inductive outcome :=
| Response (body : pyval) (status : Z)
| Raised (e : exn).

Definition status_of (r : outcome) : Z :=
  match r with
  | Response _ status => status
  | Raised _ => 500
  end.

Definition respond (body : result pyval) (status : Z) : outcome :=
  match body with
  | Ok b => Response b status
  | Raise e => Raised e
  end.

Definition error_body (message : string) : pyval :=
  PDict {[ "error" := PStr message ]}.
Definition message_body (message : string) : pyval :=
  PDict {[ "message" := PStr message ]}.

Definition get_users (s : store) : outcome * store :=
  let users := users s in
  (respond (Schema_jsonify s users_schema (AList (map OUser users))) 200, s).

Definition get_user (s : store) (user_id : Z) : outcome * store :=
  match get_User s user_id with
  | None => (respond (jsonify (PSet [PStr "User not found"])) 400, s)
  | Some user => (respond (Schema_jsonify s user_schema (AObj (OUser user))) 200, s)
  end.

Definition delete_user (s : store) (user_id : Z) : outcome * store :=
  match get_User s user_id with
  | None => (respond (jsonify (error_body "User not found")) 400, s)
  | Some user =>
      match delete_User s user with
      | Raise e => (Raised e, s)
      | Ok s' =>
          (respond (jsonify (message_body ("User " +:+ pretty user_id +:+ " deleted")))
             200, s')
      end
  end.

Definition get_products (s : store) : outcome * store :=
  let products := products s in
  (respond (Schema_jsonify s products_schema (AList (map OProduct products))) 200, s).

Definition get_product (s : store) (product_id : Z) : outcome * store :=
  match get_Product s product_id with
  | None => (respond (jsonify (error_body "Product not found")) 404, s)
  | Some product =>
      (respond (Schema_jsonify s product_schema (AObj (OProduct product))) 200, s)
  end.

Definition delete_product (s : store) (product_id : Z) : outcome * store :=
  match get_Product s product_id with
  | None => (respond (jsonify (error_body "Product not found")) 404, s)
  | Some product =>
      let s' := delete_Product s product in
      (respond (jsonify (message_body ("Product " +:+ pretty product_id +:+ " deleted")))
         200, s')
  end.

Definition add_product_to_order (s : store) (order_id product_id : Z)
    : outcome * store :=
  match get_Order s order_id, get_Product s product_id with
  | Some order, Some product =>
      if negb (contains (Order_products s order) product) then
        match link s order product with
        | Raise e => (Raised e, s)
        | Ok s' =>
            (respond (Schema_jsonify s' order_schema (AObj (OOrder order))) 200, s')
        end
      else (respond (Schema_jsonify s order_schema (AObj (OOrder order))) 200, s)
  | _, _ => (respond (jsonify (error_body "Order or product not found")) 400, s)
  end.

Definition remove_product_from_order (s : store) (order_id product_id : Z)
    : outcome * store :=
  match get_Order s order_id, get_Product s product_id with
  | Some order, Some product =>
      if contains (Order_products s order) product then
        let s' := unlink s order product in
        (respond (Schema_jsonify s' order_schema (AObj (OOrder order))) 200, s')
      else (respond (Schema_jsonify s order_schema (AObj (OOrder order))) 200, s)
  | _, _ => (respond (jsonify (error_body "Order or product not found")) 404, s)
  end.

Definition get_orders_by_user (s : store) (user_id : Z) : outcome * store :=
  match get_User s user_id with
  | None => (respond (jsonify (error_body "User not found")) 404, s)
  | Some user =>
      (respond (Schema_jsonify s orders_schema
                  (AList (map OOrder (User_orders s user)))) 200, s)
  end.

Definition get_products_in_order (s : store) (order_id : Z) : outcome * store :=
  match get_Order s order_id with
  | None => (respond (jsonify (error_body "Order not found")) 404, s)
  | Some order =>
      (respond (Schema_jsonify s products_schema
                  (AList (map OProduct (Order_products s order)))) 200, s)
  end.

Section Writes.
Context `{Runtime}.

(** The handlers that load a payload answer [None] where the payload
    is outside the embedding. *)
Definition create_user (s : store) (json : pyval) : option (outcome * store) :=
  match load UserSchema false json with
  | Uncovered => None
  | Invalid messages => Some (respond (jsonify (messages_body messages)) 400, s)
  | Valid data =>
      match save_User s None data with
      | Raise e => Some (Raised e, s)
      | Ok (user, s') =>
          Some (respond (Schema_jsonify s' user_schema (AObj (OUser user))) 200, s')
      end
  end.

Definition update_user (s : store) (user_id : Z) (json : pyval)
    : option (outcome * store) :=
  match get_User s user_id with
  | None => Some (respond (jsonify (error_body "User not found")) 400, s)
  | Some user =>
      match load UserSchema true json with
      | Uncovered => None
      | Invalid messages => Some (respond (jsonify (messages_body messages)) 400, s)
      | Valid data =>
          match save_User s (Some user) data with
          | Raise e => Some (Raised e, s)
          | Ok (updated, s') =>
              Some (respond (Schema_jsonify s' user_schema (AObj (OUser updated)))
                      200, s')
          end
      end
  end.

Definition create_product (s : store) (json : pyval) : option (outcome * store) :=
  match load ProductSchema false json with
  | Uncovered => None
  | Invalid messages => Some (respond (jsonify (messages_body messages)) 400, s)
  | Valid data =>
      match save_Product s None data with
      | Raise e => Some (Raised e, s)
      | Ok (product, s') =>
          Some (respond (Schema_jsonify s' product_schema (AObj (OProduct product)))
                  200, s')
      end
  end.

Definition update_product (s : store) (product_id : Z) (json : pyval)
    : option (outcome * store) :=
  match get_Product s product_id with
  | None => Some (respond (jsonify (error_body "Product not found")) 400, s)
  | Some product =>
      match load ProductSchema true json with
      | Uncovered => None
      | Invalid messages => Some (respond (jsonify (messages_body messages)) 400, s)
      | Valid data =>
          match save_Product s (Some product) data with
          | Raise e => Some (Raised e, s)
          | Ok (updated, s') =>
              Some (respond (Schema_jsonify s' product_schema
                               (AObj (OProduct updated))) 200, s')
          end
      end
  end.

(** [now] is what [datetime.utcnow] answers during the request. *)
Definition create_order (now : datetime) (s : store) (json : pyval)
    : option (outcome * store) :=
  match load OrderSchema false json with
  | Uncovered => None
  | Invalid messages => Some (respond (jsonify (messages_body messages)) 400, s)
  | Valid data =>
      match save_Order now s None data with
      | Raise e => Some (Raised e, s)
      | Ok (order, s') =>
          Some (respond (Schema_jsonify s' order_schema (AObj (OOrder order))) 201, s')
      end
  end.
End Writes.






(** The URL map: the fifteen routes of the application, each with the
    parameters of its path and the body it reads, and the handler each
    is bound to. *)
Module Route.
Inductive t :=
| get_users
| get_user (user_id : Z)
| create_user (json : pyval)
| update_user (user_id : Z) (json : pyval)
| delete_user (user_id : Z)
| get_products
| get_product (product_id : Z)
| create_product (json : pyval)
| update_product (product_id : Z) (json : pyval)
| delete_product (product_id : Z)
| create_order (now : datetime) (json : pyval)
| add_product_to_order (order_id product_id : Z)
| remove_product_from_order (order_id product_id : Z)
| get_orders_by_user (user_id : Z)
| get_products_in_order (order_id : Z).

(** The routes bound to the method GET. *)
Definition reads (r : t) : bool :=
  match r with
  | get_users | get_user _ | get_products | get_product _
  | get_orders_by_user _ | get_products_in_order _ => true
  | _ => false
  end.
End Route.

Definition app `{Runtime} (r : Route.t) (s : store) : option (outcome * store) :=
  match r with
  | Route.get_users => Some (get_users s)
  | Route.get_user i => Some (get_user s i)
  | Route.create_user json => create_user s json
  | Route.update_user i json => update_user s i json
  | Route.delete_user i => Some (delete_user s i)
  | Route.get_products => Some (get_products s)
  | Route.get_product i => Some (get_product s i)
  | Route.create_product json => create_product s json
  | Route.update_product i json => update_product s i json
  | Route.delete_product i => Some (delete_product s i)
  | Route.create_order now json => create_order now s json
  | Route.add_product_to_order o p => Some (add_product_to_order s o p)
  | Route.remove_product_from_order o p => Some (remove_product_from_order s o p)
  | Route.get_orders_by_user i => Some (get_orders_by_user s i)
  | Route.get_products_in_order i => Some (get_products_in_order s i)
  end.

(** ** The statements of the specification *)

(** The truncation table of the dump (section 4.2): the reduced forms
    of a nested instance, and the full form of each entity. *)
Definition Order_in_User (o : Order.t) : pyval :=
  PDict {[ "id" := PInt (Order.id o);
           "order_date" := PStr (isoformat (Order.order_date o)) ]}.

Definition User_in_Order (u : User.t) : pyval :=
  PDict {[ "id" := PInt (User.id u);
           "name" := PStr (User.name u);
           "email" := PStr (User.email u) ]}.

Definition Product_in_Order (p : Product.t) : pyval :=
  PDict {[ "id" := PInt (Product.id p);
           "product_name" := PStr (Product.product_name p);
           "price" := PFloat (Product.price p) ]}.

Definition Order_in_Product (o : Order.t) : pyval :=
  PDict {[ "id" := PInt (Order.id o);
           "order_date" := PStr (isoformat (Order.order_date o));
           "user_id" := PInt (Order.user_id o) ]}.

Definition User_json (s : store) (u : User.t) : pyval :=
  PDict {[ "id" := PInt (User.id u);
           "name" := PStr (User.name u);
           "address" := PStr (User.address u);
           "email" := PStr (User.email u);
           "orders" := PList (map Order_in_User (User_orders s u)) ]}.

Definition Order_json (s : store) (o : Order.t) : pyval :=
  PDict {[ "id" := PInt (Order.id o);
           "order_date" := PStr (isoformat (Order.order_date o));
           "user_id" := PInt (Order.user_id o);
           "user" := from_option User_in_Order PNone (Order_user s o);
           "products" := PList (map Product_in_Order (Order_products s o)) ]}.

Definition Product_json (s : store) (p : Product.t) : pyval :=
  PDict {[ "id" := PInt (Product.id p);
           "product_name" := PStr (Product.product_name p);
           "price" := PFloat (Product.price p);
           "orders" := PList (map Order_in_Product (Product_orders s p)) ]}.

(** The address field of [UserSchema], as declared. *)
Abbreviation address_field :=
  (fields.Scalar Str (Kwargs false false [Length (Some 5%nat) (Some 150%nat)] false)).

(** The constraint on an address: 5 to 150 characters. *)
Definition address_ok (a : string) : bool :=
  (5 <=? String.length a)%nat && (String.length a <=? 150)%nat.

(** The messages a payload earns under one key, taken on its own: the
    field of that name refuses the value, or no field has that name. *)
Definition field_messages `{Runtime} (sc : schema_class) (partial : bool)
    (m : gmap string pyval) (k : string) : list string :=
  match list_to_map (M := gmap string fields.t) (load_fields sc) !! k with
  | Some f =>
      match deserialize f partial (m !! k) with
      | Errors messages => messages
      | _ => []
      end
  | None =>
      match m !! k with
      | Some _ => ["Unknown field."]
      | None => []
      end
  end.

(** The payload gives a value to a relationship of the schema. *)
Definition carries_collection `{Runtime} (sc : schema_class) (partial : bool)
    (m : gmap string pyval) : bool :=
  existsb (fun kf => match deserialize kf.2 partial (m !! kf.1) with
                     | Collection => true
                     | _ => false
                     end) (load_fields sc).


(** The keys a schema requires on a full load. *)
Definition required_fields (sc : schema_class) : list string :=
  (List.filter (fun kf => required (fields.opts kf.2)) (load_fields sc)).*1.

(** The foreign keys: every order has its user, every row of the
    association table its order and its product. *)
Definition references_hold (s : store) : Prop :=
  (forall o, o ∈ orders s -> is_Some (get_User s (Order.user_id o))) /\
  (forall l, l ∈ order_product s ->
             is_Some (get_Order s l.1) /\ is_Some (get_Product s l.2)).

(** The primary key of the association table: no pair twice. *)
Definition order_product_key (s : store) : Prop := NoDup (order_product s).

(** ** Instances to run the handlers on *)

(** A runtime that takes JSON numbers as they are and refuses the rest
    (marshmallow takes more: numbers in strings, integral floats), and
    that asks no more of an e-mail address than an at sign. *)
Definition plain_runtime : Runtime := {|
  integer_field v :=
    match v with
    | PInt z => inr z
    | _ => inl "Not a valid integer."
    end;
  float_field v :=
    match v with
    | PFloat f => inr f
    | _ => inl "Not a valid number."
    end;
  datetime_field v := inl "Not a valid datetime.";
  email_pattern e := existsb (Ascii.eqb (Ascii.ascii_of_nat 64)) (list_ascii_of_string e)
|}.

Definition empty_store : store := Store [] [] [] [] 1 1 1.

Definition ann : User.t := User.mk 1 "Ann" "1 Main Street" "ann@example.com".
Definition order7 : Order.t := Order.mk 7 (Datetime 2024 3 9 14 5 0 0) 1.
Definition widget : Product.t := Product.mk 3 "Widget" (S754_finite false 5 (-1)).
Definition gadget : Product.t := Product.mk 4 "Gadget" (S754_finite false 3 0).

(** Ann, her order of a widget, and a gadget nobody ordered. *)
Definition shop : store := Store [ann] [order7] [widget; gadget] [(7, 3)] 2 8 5.

(** * Proofs *)

(** ** Dump *)

(** A list of nested instances is dumped item by item. *)
Lemma serialize_nested_list {A} nested sc only o1 o2 (inj : A -> obj) (g : A -> pyval)
    (l : list A) :
  (forall x, nested sc (Some only) (inj x) = Ok (g x)) ->
  serialize nested (fields.List (fields.Nested sc only o1) o2) (AList (map inj l))
  = Ok (Some (PList (map g l))).
Proof.
  intros Hn. cbn [serialize].
  assert (Hl : mapM (fun o => v ← serialize nested (fields.Nested sc only o1) (AObj o);
                              Ok (default PNone v)) (map inj l) = Ok (map g l)).
  { induction l as [|x l IH]; [reflexivity|].
    cbn [map mapM serialize]. rewrite Hn. cbn. cbn in IH. rewrite IH. reflexivity. }
  cbn in Hl. cbn. rewrite Hl. reflexivity.
Qed.

Lemma dump_Order_in_User d s o :
  dump (S d) s OrderSchema (Some ["id"; "order_date"]) (OOrder o) = Ok (Order_in_User o).
Proof. vm_compute. reflexivity. Qed.

Lemma dump_User_in_Order d s u :
  dump (S d) s UserSchema (Some ["id"; "name"; "email"]) (OUser u) = Ok (User_in_Order u).
Proof. vm_compute. reflexivity. Qed.

Lemma dump_Product_in_Order d s p :
  dump (S d) s ProductSchema (Some ["id"; "product_name"; "price"]) (OProduct p)
  = Ok (Product_in_Order p).
Proof. vm_compute. reflexivity. Qed.

Lemma dump_Order_in_Product d s o :
  dump (S d) s OrderSchema (Some ["id"; "order_date"; "user_id"]) (OOrder o)
  = Ok (Order_in_Product o).
Proof. vm_compute. reflexivity. Qed.

Ltac dump_step sc :=
  match goal with
  | |- dump (S (S ?d)) ?s sc None ?o = _ =>
      change (dump (S (S d)) s sc None o)
        with (fs ← select None (dump_fields sc);
              m ← dump_items (serialize (dump (S d) s)) (getattr s o) fs;
              Ok (PDict m));
      replace (select None (dump_fields sc)) with (Ok (schema_fields sc)) by reflexivity;
      cbn [mbind result_bind];
      let x := eval vm_compute in (schema_fields sc) in
      change (schema_fields sc) with x;
      cbn [dump_items getattr]
  end.

Lemma dump_User d s u :
  dump (S (S d)) s UserSchema None (OUser u) = Ok (User_json s u).
Proof.
  dump_step UserSchema.
  rewrite (serialize_nested_list _ _ _ _ _ OOrder Order_in_User)
    by apply dump_Order_in_User.
  reflexivity.
Qed.

Lemma dump_Order d s o :
  dump (S (S d)) s OrderSchema None (OOrder o) = Ok (Order_json s o).
Proof.
  dump_step OrderSchema.
  rewrite (serialize_nested_list _ _ _ _ _ OProduct Product_in_Order)
    by apply dump_Product_in_Order.
  unfold Order_json.
  destruct (Order_user s o) as [u|]; cbn [serialize from_option].
  - rewrite dump_User_in_Order. reflexivity.
  - reflexivity.
Qed.

Lemma dump_Product d s p :
  dump (S (S d)) s ProductSchema None (OProduct p) = Ok (Product_json s p).
Proof.
  dump_step ProductSchema.
  rewrite (serialize_nested_list _ _ _ _ _ OOrder Order_in_Product)
    by apply dump_Order_in_Product.
  reflexivity.
Qed.

(** C1. Dump follows the truncation table: a user is dumped with its id,
    name, address and email and its orders reduced to id and order_date;
    an order with its id, order_date and user_id, its user reduced to
    id, name and email and its products to id, product_name and price;
    a product with its id, product_name and price and its orders reduced
    to id, order_date and user_id. Two levels of nesting are enough. *)
Theorem dump_truncation_table (d : nat) (s : store) :
  (forall u, dump (S (S d)) s UserSchema None (OUser u) = Ok (User_json s u)) /\
  (forall o, dump (S (S d)) s OrderSchema None (OOrder o) = Ok (Order_json s o)) /\
  (forall p, dump (S (S d)) s ProductSchema None (OProduct p) = Ok (Product_json s p)).
Proof.
  split; [|split]; intros x.
  - apply dump_User.
  - apply dump_Order.
  - apply dump_Product.
Qed.

(** ** jsonify *)

Lemma serialisable_PDict (m : gmap string pyval) :
  map_Forall (fun _ v => serialisable v = true) m -> serialisable (PDict m) = true.
Proof.
  cbn [serialisable].
  apply (map_fold_weak_ind
           (fun r m => map_Forall (fun _ v => serialisable v = true) m -> r = true)).
  - reflexivity.
  - intros i x m' r Hi IH Hall.
    apply map_Forall_insert in Hall as [Hx Hm]; [|exact Hi].
    rewrite Hx, (IH Hm). reflexivity.
Qed.

Lemma serialisable_PList {A} (g : A -> pyval) (l : list A) :
  (forall x, serialisable (g x) = true) -> serialisable (PList (map g l)) = true.
Proof.
  intros Hg. cbn [serialisable]. apply forallb_forall.
  intros v Hv. apply in_map_iff in Hv as (x & <- & _). apply Hg.
Qed.

Ltac dict_ok :=
  apply serialisable_PDict;
  repeat (apply (map_Forall_insert_2 (fun _ v => serialisable v = true)); [|]);
  lazymatch goal with
  | |- map_Forall _ _ => apply map_Forall_empty
  | |- _ => try reflexivity
  end.

Lemma serialisable_Order_in_User o : serialisable (Order_in_User o) = true.
Proof. unfold Order_in_User. dict_ok. Qed.
Lemma serialisable_User_in_Order u : serialisable (User_in_Order u) = true.
Proof. unfold User_in_Order. dict_ok. Qed.
Lemma serialisable_Product_in_Order p : serialisable (Product_in_Order p) = true.
Proof. unfold Product_in_Order. dict_ok. Qed.
Lemma serialisable_Order_in_Product o : serialisable (Order_in_Product o) = true.
Proof. unfold Order_in_Product. dict_ok. Qed.

Lemma serialisable_User_json s u : serialisable (User_json s u) = true.
Proof.
  unfold User_json. dict_ok.
  apply serialisable_PList, serialisable_Order_in_User.
Qed.
Lemma serialisable_Order_json s o : serialisable (Order_json s o) = true.
Proof.
  unfold Order_json. dict_ok.
  - destruct (Order_user s o); [apply serialisable_User_in_Order | reflexivity].
  - apply serialisable_PList, serialisable_Product_in_Order.
Qed.
Lemma serialisable_Product_json s p : serialisable (Product_json s p) = true.
Proof.
  unfold Product_json. dict_ok.
  apply serialisable_PList, serialisable_Order_in_Product.
Qed.

Lemma mapM_map_Ok {A B C : Type} (f : B -> result C) (inj : A -> B) (g : A -> C)
    (l : list A) :
  (forall x, f (inj x) = Ok (g x)) -> mapM f (map inj l) = Ok (map g l).
Proof.
  intros Hf. induction l as [|x l IH]; [reflexivity|].
  cbn [mapM map]. rewrite Hf, IH. reflexivity.
Qed.

Lemma recursion_limit_2 : recursion_limit = S (S 998).
Proof. reflexivity. Qed.

Lemma jsonify_Ok v : serialisable v = true -> jsonify v = Ok v.
Proof. intros Hv. unfold jsonify. rewrite Hv. reflexivity. Qed.

Lemma jsonify_User s u :
  Schema_jsonify s user_schema (AObj (OUser u)) = Ok (User_json s u).
Proof.
  unfold Schema_jsonify, Schema_dump. cbn [many cls user_schema].
  rewrite recursion_limit_2, dump_User. cbn [mbind result_bind].
  apply jsonify_Ok, serialisable_User_json.
Qed.

Lemma jsonify_Order s o :
  Schema_jsonify s order_schema (AObj (OOrder o)) = Ok (Order_json s o).
Proof.
  unfold Schema_jsonify, Schema_dump. cbn [many cls order_schema].
  rewrite recursion_limit_2, dump_Order. cbn [mbind result_bind].
  apply jsonify_Ok, serialisable_Order_json.
Qed.

Lemma jsonify_Product s p :
  Schema_jsonify s product_schema (AObj (OProduct p)) = Ok (Product_json s p).
Proof.
  unfold Schema_jsonify, Schema_dump. cbn [many cls product_schema].
  rewrite recursion_limit_2, dump_Product. cbn [mbind result_bind].
  apply jsonify_Ok, serialisable_Product_json.
Qed.


Lemma jsonify_Products s l :
  Schema_jsonify s products_schema (AList (map OProduct l))
  = Ok (PList (map (Product_json s) l)).
Proof.
  unfold Schema_jsonify, Schema_dump. cbn [many cls products_schema].
  rewrite recursion_limit_2.
  rewrite (mapM_map_Ok _ OProduct (Product_json s)) by (intros u; apply dump_Product).
  cbn [fmap result_fmap mbind result_bind].
  apply jsonify_Ok, serialisable_PList, serialisable_Product_json.
Qed.

Lemma jsonify_error_body msg : jsonify (error_body msg) = Ok (error_body msg).
Proof. apply jsonify_Ok. unfold error_body. dict_ok. Qed.

Lemma jsonify_message_body msg : jsonify (message_body msg) = Ok (message_body msg).
Proof. apply jsonify_Ok. unfold message_body. dict_ok. Qed.

Lemma jsonify_messages_body messages :
  jsonify (messages_body messages) = Ok (messages_body messages).
Proof.
  apply jsonify_Ok, serialisable_PDict.
  intros k v Hk. apply lookup_fmap_Some in Hk as (l & <- & _).
  cbn [serialisable]. apply forallb_forall.
  intros v Hv. apply in_map_iff in Hv as (x & <- & _). reflexivity.
Qed.

(** ** The association table *)

Lemma get_Product_id s i p : get_Product s i = Some p -> Product.id p = i.
Proof. intros Hp. apply find_some in Hp as [_ Hp]. lia. Qed.

Lemma get_Order_id s i o : get_Order s i = Some o -> Order.id o = i.
Proof. intros Ho. apply find_some in Ho as [_ Ho]. lia. Qed.

Lemma get_User_id s i u : get_User s i = Some u -> User.id u = i.
Proof. intros Hu. apply find_some in Hu as [_ Hu]. lia. Qed.


(** Among the products of an order, those of a given id are as many as
    the rows of the association table for the pair. *)
Lemma Order_products_filter s o p :
  get_Product s (Product.id p) = Some p ->
  List.filter (fun q => Product.id q =? Product.id p) (Order_products s o)
  = omap (fun l => if is_link (Order.id o) (Product.id p) l then Some p else None)
         (order_product s).
Proof.
  intros Hp. unfold Order_products.
  induction (order_product s) as [|[a b] rows IH]; [reflexivity|].
  cbn [omap list_omap]. unfold is_link at 1. cbn [fst snd].
  destruct (a =? Order.id o) eqn:Ha; cbn [andb]; [|exact IH].
  destruct (get_Product s b) as [q|] eqn:Hq.
  - cbn [List.filter]. rewrite (get_Product_id _ _ _ Hq).
    destruct (b =? Product.id p) eqn:Hb.
    + apply Z.eqb_eq in Hb. subst b. rewrite Hp in Hq. injection Hq as <-.
      f_equal. exact IH.
    + exact IH.
  - destruct (b =? Product.id p) eqn:Hb; [|exact IH].
    apply Z.eqb_eq in Hb. subst b. congruence.
Qed.

Lemma contains_existsb s o p :
  get_Product s (Product.id p) = Some p ->
  contains (Order_products s o) p
  = existsb (is_link (Order.id o) (Product.id p)) (order_product s).
Proof.
  intros Hp. unfold contains.
  transitivity
    (negb (Nat.eqb (List.length
                      (List.filter (fun q => Product.id q =? Product.id p)
                                   (Order_products s o))) 0)).
  - induction (Order_products s o) as [|q l IH]; [reflexivity|].
    cbn [existsb List.filter]. destruct (Product.id q =? Product.id p); [reflexivity|exact IH].
  - rewrite (Order_products_filter _ _ _ Hp).
    induction (order_product s) as [|r rows IH]; [reflexivity|].
    cbn [omap list_omap existsb]. destruct (is_link _ _ r); [reflexivity|exact IH].
Qed.

Lemma is_link_spec oid pid a b : is_link oid pid (a, b) = true <-> (a, b) = (oid, pid).
Proof.
  unfold is_link. cbn [fst snd]. rewrite andb_true_iff, !Z.eqb_eq.
  split; [intros [-> ->]; reflexivity | intros [= -> ->]; done].
Qed.

Lemma existsb_is_link oid pid rows :
  existsb (is_link oid pid) rows = bool_decide ((oid, pid) ∈ rows).
Proof.
  induction rows as [|[a b] rows IH].
  - symmetry. apply bool_decide_eq_false. apply not_elem_of_nil.
  - cbn [existsb]. rewrite IH.
    destruct (is_link oid pid (a, b)) eqn:Hl; cbn [orb].
    + apply is_link_spec in Hl as [= -> ->].
      symmetry. apply bool_decide_eq_true. left.
    + apply bool_decide_ext. rewrite elem_of_cons. split; [tauto|].
      intros [Heq|?]; [|done]. symmetry in Heq. apply is_link_spec in Heq. congruence.
Qed.

Lemma count_link oid pid (p : Product.t) rows :
  NoDup rows -> (oid, pid) ∈ rows ->
  List.length (omap (fun l => if is_link oid pid l then Some p else None) rows) = 1%nat.
Proof.
  induction 1 as [|[a b] rows Hnotin Hnd IH]; intros Hin.
  - apply elem_of_nil in Hin as [].
  - cbn [omap list_omap].
    destruct (is_link oid pid (a, b)) eqn:Hl.
    + apply is_link_spec in Hl as [= -> ->].
      cbn [List.length]. f_equal.
      clear IH Hnd Hin. induction rows as [|[a b] rows IH]; [reflexivity|].
      cbn [omap list_omap].
      apply not_elem_of_cons in Hnotin as [Hne Hnotin].
      destruct (is_link oid pid (a, b)) eqn:Hl; [|apply IH; exact Hnotin].
      apply is_link_spec in Hl. congruence.
    + apply elem_of_cons in Hin as [Heq|Hin]; [|apply IH; exact Hin].
      symmetry in Heq. apply is_link_spec in Heq. congruence.
Qed.

Lemma NoDup_List_filter {A : Type} (f : A -> bool) (l : list A) :
  NoDup l -> NoDup (List.filter f l).
Proof.
  induction 1 as [|x l Hx Hl IH]; cbn [List.filter]; [constructor|].
  destruct (f x); [|exact IH].
  constructor; [|exact IH].
  rewrite list_elem_of_In, filter_In, <- list_elem_of_In. tauto.
Qed.

(** The primary key of the association table holds of the empty store,
    and the three handlers that write the table keep it. *)
Lemma order_product_key_kept (s : store) (order_id product_id : Z) :
  order_product_key empty_store /\
  (order_product_key s ->
   order_product_key (add_product_to_order s order_id product_id).2 /\
   order_product_key (remove_product_from_order s order_id product_id).2 /\
   order_product_key (delete_product s product_id).2).
Proof.
  split; [constructor|]. intros Hkey. unfold order_product_key in *.
  split; [|split].
  - unfold add_product_to_order.
    destruct (get_Order s order_id) as [o|] eqn:Ho; [|exact Hkey].
    destruct (get_Product s product_id) as [p|] eqn:Hp; [|exact Hkey].
    destruct (contains (Order_products s o) p); cbn [negb]; [exact Hkey|].
    unfold link. rewrite existsb_is_link.
    destruct (decide ((Order.id o, Product.id p) ∈ order_product s)) as [Hin|Hnotin].
    + rewrite bool_decide_eq_true_2 by exact Hin. exact Hkey.
    + rewrite bool_decide_eq_false_2 by exact Hnotin. cbn.
      apply NoDup_app. split; [exact Hkey|]. split; [|apply NoDup_singleton].
      intros x Hx Hx'. apply list_elem_of_singleton in Hx'. subst x. contradiction.
  - unfold remove_product_from_order.
    destruct (get_Order s order_id) as [o|]; [|exact Hkey].
    destruct (get_Product s product_id) as [p|]; [|exact Hkey].
    destruct (contains (Order_products s o) p); [|exact Hkey].
    cbn. apply NoDup_List_filter, Hkey.
  - unfold delete_product.
    destruct (get_Product s product_id) as [p|]; [|exact Hkey].
    cbn. apply NoDup_List_filter, Hkey.
Qed.

(** ** The routes that do not load *)

(** C3. Linking is idempotent: for an existing order and product, under
    the primary key of the association table, PUT add_product answers
    200 with the order and leaves a store on which the same request
    answers the same and changes nothing; a pair that was linked already
    leaves the store as it was; the product is exactly once among the
    products of the order, which GET /orders/{id}/products lists. *)
Theorem add_product_to_order_idempotent (s : store) (order_id product_id : Z)
    (order : Order.t) (product : Product.t) :
  get_Order s order_id = Some order ->
  get_Product s product_id = Some product ->
  order_product_key s ->
  exists s1,
    add_product_to_order s order_id product_id = (Response (Order_json s1 order) 200, s1) /\
    add_product_to_order s1 order_id product_id = (Response (Order_json s1 order) 200, s1) /\
    ((order_id, product_id) ∈ order_product s -> s1 = s) /\
    order_product_key s1 /\
    List.length (List.filter (fun q => Product.id q =? product_id)
                   (Order_products s1 order)) = 1%nat /\
    get_products_in_order s1 order_id
    = (Response (PList (map (Product_json s1) (Order_products s1 order))) 200, s1).
Proof.
  intros Ho Hp Hkey.
  pose proof (get_Order_id _ _ _ Ho) as Hoid.
  pose proof (get_Product_id _ _ _ Hp) as Hpid.
  subst order_id product_id.
  assert (Hstep : forall s', get_Order s' (Order.id order) = Some order ->
            get_Product s' (Product.id product) = Some product ->
            (Order.id order, Product.id product) ∈ order_product s' ->
            add_product_to_order s' (Order.id order) (Product.id product)
            = (Response (Order_json s' order) 200, s')).
  { intros s' Ho' Hq' Hin. unfold add_product_to_order. rewrite Ho', Hq'.
    rewrite contains_existsb by exact Hq'.
    rewrite existsb_is_link, bool_decide_eq_true_2 by exact Hin.
    cbn [negb]. rewrite jsonify_Order. reflexivity. }
  assert (Hfinal : forall s', get_Order s' (Order.id order) = Some order ->
            get_Product s' (Product.id product) = Some product ->
            (Order.id order, Product.id product) ∈ order_product s' ->
            order_product_key s' ->
            List.length (List.filter (fun q => Product.id q =? Product.id product)
                           (Order_products s' order)) = 1%nat /\
            get_products_in_order s' (Order.id order)
            = (Response (PList (map (Product_json s') (Order_products s' order))) 200, s')).
  { intros s' Ho' Hq' Hin Hk. split.
    - rewrite Order_products_filter by exact Hq'.
      apply count_link; assumption.
    - unfold get_products_in_order. rewrite Ho', jsonify_Products. reflexivity. }
  destruct (decide ((Order.id order, Product.id product) ∈ order_product s)) as [Hin|Hnotin].
  - exists s. rewrite (Hstep s Ho Hp Hin).
    destruct (Hfinal s Ho Hp Hin Hkey) as [Hc Hg].
    repeat split; try assumption; reflexivity.
  - set (s1 := set_order_product s
                 (order_product s ++ [(Order.id order, Product.id product)])).
    assert (Hin1 : (Order.id order, Product.id product) ∈ order_product s1).
    { cbn. apply elem_of_app. right. left. }
    assert (Hk1 : order_product_key s1).
    { unfold order_product_key. cbn. apply NoDup_app. split; [exact Hkey|]. split.
      - intros x Hx Hx'. apply list_elem_of_singleton in Hx'. subst x. contradiction.
      - apply NoDup_singleton. }
    exists s1.
    destruct (Hfinal s1 Ho Hp Hin1 Hk1) as [Hc Hg].
    rewrite (Hstep s1 Ho Hp Hin1).
    repeat split; try assumption; try contradiction.
    unfold add_product_to_order. rewrite Ho, Hp.
    rewrite contains_existsb by exact Hp.
    rewrite existsb_is_link, bool_decide_eq_false_2 by exact Hnotin.
    cbn [negb]. unfold link.
    rewrite existsb_is_link, bool_decide_eq_false_2 by exact Hnotin.
    fold s1. rewrite jsonify_Order. reflexivity.
Qed.

(** C7. Unlinking a product that is not linked to the order: for an
    existing order and product whose pair is not in the association
    table, DELETE remove_product answers 200 with the order and leaves
    the store, and with it the products of the order, as they were. *)
Theorem remove_unlinked_product (s : store) (order_id product_id : Z)
    (order : Order.t) (product : Product.t) :
  get_Order s order_id = Some order ->
  get_Product s product_id = Some product ->
  (order_id, product_id) ∉ order_product s ->
  remove_product_from_order s order_id product_id
  = (Response (Order_json s order) 200, s).
Proof.
  intros Ho Hp Hnotin.
  pose proof (get_Order_id _ _ _ Ho) as Hoid.
  pose proof (get_Product_id _ _ _ Hp) as Hpid.
  subst order_id product_id.
  unfold remove_product_from_order. rewrite Ho, Hp.
  rewrite contains_existsb by exact Hp.
  rewrite existsb_is_link, bool_decide_eq_false_2 by exact Hnotin.
  rewrite jsonify_Order. reflexivity.
Qed.

(** C10. When the order or the product of the path does not exist, PUT
    add_product answers 400 and DELETE remove_product answers 404, both
    with an error body, and the store is as it was. *)
Theorem link_routes_not_found (s : store) (order_id product_id : Z) :
  get_Order s order_id = None \/ get_Product s product_id = None ->
  add_product_to_order s order_id product_id
  = (Response (error_body "Order or product not found") 400, s) /\
  remove_product_from_order s order_id product_id
  = (Response (error_body "Order or product not found") 404, s).
Proof.
  intros Hnone. unfold add_product_to_order, remove_product_from_order.
  rewrite jsonify_error_body.
  destruct Hnone as [-> | ->]; [|destruct (get_Order s order_id)]; split; reflexivity.
Qed.

(** C8. DELETE /products/{id} on an id without a product answers 404
    with an error body, DELETE /users/{id} on an id without a user
    answers 400 with an error body; no row is deleted. *)
Theorem delete_not_found (s : store) (product_id user_id : Z) :
  get_Product s product_id = None ->
  get_User s user_id = None ->
  delete_product s product_id = (Response (error_body "Product not found") 404, s) /\
  delete_user s user_id = (Response (error_body "User not found") 400, s).
Proof.
  intros Hp Hu. unfold delete_product, delete_user.
  rewrite Hp, Hu, !jsonify_error_body. split; reflexivity.
Qed.

(** C5, as the code has it: on an id without a user, GET /users/{id}
    hands a set to jsonify, which raises TypeError; the handler returns
    no response of its own and the server answers 500, not 400. The
    store is as it was. *)
Theorem get_user_not_found (s : store) (user_id : Z) :
  get_User s user_id = None ->
  get_user s user_id = (Raised TypeError, s) /\
  status_of (get_user s user_id).1 = 500.
Proof.
  intros Hu. unfold get_user. rewrite Hu. split; reflexivity.
Qed.


(** ** Load *)

Section LoadFacts.
Context `{Runtime}.
Implicit Types (m : gmap string pyval) (fs : list (string * fields.t)).

Lemma fold_load_field_errors partial m fs st k :
  NoDup fs.*1 ->
  errors (fold_left (load_field partial m) fs st) !! k
  = match list_to_map (M := gmap string fields.t) fs !! k with
    | Some f =>
        match deserialize f partial (m !! k) with
        | Errors messages => Some messages
        | _ => errors st !! k
        end
    | None => errors st !! k
    end.
Proof.
  revert st. induction fs as [|[k0 f0] fs IH]; intros st Hnd; [reflexivity|].
  apply NoDup_cons in Hnd as [Hk0 Hnd].
  cbn [fold_left list_to_map foldr]. rewrite (IH _ Hnd). cbn [uncurry fst snd curry].
  destruct (decide (k = k0)) as [->|Hne].
  - rewrite lookup_insert_eq.
    rewrite (not_elem_of_list_to_map_1 _ _ Hk0).
    unfold load_field. cbn [fst snd].
    destruct (deserialize f0 partial (m !! k0)); cbn [errors]; try reflexivity.
    apply lookup_insert_eq.
  - rewrite lookup_insert_ne by done.
    assert (He : errors (load_field partial m st (k0, f0)) !! k = errors st !! k).
    { unfold load_field. cbn [fst snd].
      destruct (deserialize f0 partial (m !! k0)); cbn [errors]; try reflexivity.
      apply lookup_insert_ne. done. }
    rewrite He. reflexivity.
Qed.

Lemma fold_load_field_ret_d partial m fs st k :
  NoDup fs.*1 ->
  ret_d (fold_left (load_field partial m) fs st) !! k
  = match list_to_map (M := gmap string fields.t) fs !! k with
    | Some f =>
        match deserialize f partial (m !! k) with
        | Value a => Some a
        | _ => ret_d st !! k
        end
    | None => ret_d st !! k
    end.
Proof.
  revert st. induction fs as [|[k0 f0] fs IH]; intros st Hnd; [reflexivity|].
  apply NoDup_cons in Hnd as [Hk0 Hnd].
  cbn [fold_left list_to_map foldr]. rewrite (IH _ Hnd). cbn [uncurry fst snd curry].
  destruct (decide (k = k0)) as [->|Hne].
  - rewrite lookup_insert_eq.
    rewrite (not_elem_of_list_to_map_1 _ _ Hk0).
    unfold load_field. cbn [fst snd].
    destruct (deserialize f0 partial (m !! k0)); cbn [ret_d]; try reflexivity.
    apply lookup_insert_eq.
  - rewrite lookup_insert_ne by done.
    assert (He : ret_d (load_field partial m st (k0, f0)) !! k = ret_d st !! k).
    { unfold load_field. cbn [fst snd].
      destruct (deserialize f0 partial (m !! k0)); cbn [ret_d]; try reflexivity.
      apply lookup_insert_ne. done. }
    rewrite He. reflexivity.
Qed.

Lemma fold_load_field_collection partial m fs st :
  collection (fold_left (load_field partial m) fs st)
  = collection st
    || existsb (fun kf => match deserialize kf.2 partial (m !! kf.1) with
                          | Collection => true
                          | _ => false
                          end) fs.
Proof.
  revert st. induction fs as [|[k0 f0] fs IH]; intros st.
  - cbn. rewrite orb_false_r. reflexivity.
  - cbn [fold_left existsb]. rewrite IH. unfold load_field. cbn [fst snd].
    destruct (deserialize f0 partial (m !! k0)); cbn [collection orb];
      rewrite ?orb_true_r; reflexivity.
Qed.

Lemma deserialize_Errors_nonempty f partial raw :
  deserialize f partial raw <> Errors [].
Proof.
  unfold deserialize.
  destruct raw as [v|].
  - assert (Hs : match f with
                 | fields.Scalar k o =>
                     match deserialize_scalar k v with
                     | inl messages => Errors messages
                     | inr a => match run_validators k (validate o) a with
                                | [] => Value a
                                | messages => Errors messages
                                end
                     end
                 | _ => Collection
                 end <> Errors []).
    { destruct f as [k o| | |]; try discriminate.
      destruct (deserialize_scalar k v) as [msgs|a] eqn:Hd.
      - unfold deserialize_scalar, one in Hd.
        destruct k;
          [ destruct (integer_field v) | destruct v | destruct (float_field v)
          | destruct (datetime_field v) | destruct v ];
          cbn in Hd;
          first [ discriminate Hd | injection Hd as <-; discriminate ].
      - destruct (run_validators k (validate o) a); discriminate. }
    destruct v; try exact Hs.
    destruct (allow_none (fields.opts f)); discriminate.
  - destruct partial; [discriminate|].
    destruct (required (fields.opts f)); discriminate.
Qed.

Lemma load_fields_NoDup sc : NoDup (load_fields sc).*1.
Proof. destruct sc; apply (bool_decide_unpack _); vm_compute; exact I. Qed.

(** The messages of [load], key by key. *)
Lemma load_messages_lookup sc partial m k :
  (errors (fold_left (load_field partial m) (load_fields sc) (Loading ∅ ∅ false))
   ∪ unknown_fields sc m) !! k
  = match field_messages sc partial m k with
    | [] => None
    | messages => Some messages
    end.
Proof.
  rewrite lookup_union, fold_load_field_errors by apply load_fields_NoDup.
  cbn [errors]. unfold field_messages, unknown_fields.
  rewrite lookup_fmap, map_lookup_filter.
  destruct (list_to_map (load_fields sc) !! k) as [f|] eqn:Hf.
  - assert (Hin : k ∈ (load_fields sc).*1).
    { apply elem_of_list_to_map_2 in Hf. apply list_elem_of_fmap. exists (k, f). done. }
    assert (Hu : (fun _ : pyval => ["Unknown field."%string])
                 <$> (m !! k ≫= fun x => guard ((k, x).1 ∉ (load_fields sc).*1);; Some x)
                 = None).
    { destruct (m !! k); [|reflexivity]. cbn. rewrite option_guard_False; [reflexivity|].
      intros Hn. apply Hn, Hin. }
    rewrite Hu.
    pose proof (deserialize_Errors_nonempty f partial (m !! k)) as Hne.
    destruct (deserialize f partial (m !! k)) as [|a|[|msg msgs]|]; try reflexivity.
    congruence.
  - rewrite lookup_empty.
    assert (Hnotin : k ∉ (load_fields sc).*1).
    { apply not_elem_of_list_to_map. exact Hf. }
    destruct (m !! k); [|reflexivity]. cbn. rewrite option_guard_True by exact Hnotin.
    reflexivity.
Qed.

(** What [load] answers on an object, from the messages and the values
    key by key. *)
Lemma load_PDict sc partial m :
  exists (messages : gmap string (list string)) (data : gmap string attr),
    (forall k, messages !! k = match field_messages sc partial m k with
                               | [] => None
                               | l => Some l
                               end) /\
    (forall k, data !! k
               = match list_to_map (M := gmap string fields.t) (load_fields sc) !! k with
                 | Some f => match deserialize f partial (m !! k) with
                             | Value a => Some a
                             | _ => None
                             end
                 | None => None
                 end) /\
    load sc partial (PDict m)
    = if carries_collection sc partial m then Uncovered
      else if bool_decide (messages = ∅) then Valid data
      else Invalid messages.
Proof.
  exists (errors (fold_left (load_field partial m) (load_fields sc) (Loading ∅ ∅ false))
          ∪ unknown_fields sc m),
         (ret_d (fold_left (load_field partial m) (load_fields sc) (Loading ∅ ∅ false))).
  split; [|split].
  - intros k. apply load_messages_lookup.
  - intros k. rewrite fold_load_field_ret_d by apply load_fields_NoDup.
    cbn [ret_d]. rewrite lookup_empty.
    destruct (list_to_map (load_fields sc) !! k) as [f|]; [|reflexivity].
    destruct (deserialize f partial (m !! k)); reflexivity.
  - unfold load, carries_collection. rewrite fold_load_field_collection. reflexivity.
Qed.
End LoadFacts.

(** ** The routes that load *)

Lemma find_replace (i j : Z) (u' : User.t) (l : list User.t) :
  User.id u' = i ->
  find (fun u => User.id u =? j) (map (fun r => if User.id r =? i then u' else r) l)
  = if j =? i then (fun _ => u') <$> find (fun u => User.id u =? i) l
    else find (fun u => User.id u =? j) l.
Proof.
  intros Hu'. induction l as [|r l IH]; [destruct (j =? i); reflexivity|].
  cbn [map find].
  destruct (Z.eqb_spec (User.id r) i) as [Hr|Hr].
  - rewrite Hu', Hr. destruct (Z.eqb_spec i j) as [<-|Hij].
    + rewrite Z.eqb_refl. reflexivity.
    + rewrite IH. destruct (Z.eqb_spec j i) as [->|_]; [contradiction|reflexivity].
  - rewrite IH. destruct (Z.eqb_spec j i) as [->|Hji].
    + destruct (Z.eqb_spec (User.id r) i) as [?|_]; [contradiction|reflexivity].
    + reflexivity.
Qed.

Section WriteFacts.
Context `{Runtime}.

Lemma deserialize_Scalar_not_Collection k o partial raw :
  deserialize (fields.Scalar k o) partial raw <> Collection.
Proof.
  unfold deserialize. destruct raw as [v|].
  - assert (Hs : match deserialize_scalar k v with
                 | inl messages => Errors messages
                 | inr a => match run_validators k (validate o) a with
                            | [] => Value a
                            | messages => Errors messages
                            end
                 end <> Collection).
    { destruct (deserialize_scalar k v); [discriminate|].
      destruct (run_validators k (validate o) a); discriminate. }
    destruct v; try exact Hs.
    destruct (allow_none (fields.opts (fields.Scalar k o))); discriminate.
  - destruct partial; [discriminate|].
    destruct (required (fields.opts (fields.Scalar k o))); discriminate.
Qed.

Lemma load_fields_User :
  load_fields UserSchema
  = [ ("email", fields.Scalar Email (Kwargs true false [] false));
      ("address",
       fields.Scalar Str (Kwargs false false [Length (Some 5%nat) (Some 150%nat)] false));
      ("orders",
       fields.List (fields.Nested OrderSchema ["id"; "order_date"]
                      (Kwargs false false [] true)) kw);
      ("id", fields.Scalar Integer (Kwargs false false [] false));
      ("name",
       fields.Scalar Str (Kwargs true false [Length None (Some 100%nat)] false)) ].
Proof. reflexivity. Qed.

Lemma load_fields_Product :
  load_fields ProductSchema
  = [ ("orders",
       fields.List (fields.Nested OrderSchema ["id"; "order_date"; "user_id"]
                      (Kwargs false false [] true)) kw);
      ("id", fields.Scalar Integer (Kwargs false false [] false));
      ("product_name",
       fields.Scalar Str (Kwargs true false [Length None (Some 100%nat)] false));
      ("price", fields.Scalar Float (Kwargs true false [] false)) ].
Proof. reflexivity. Qed.

Lemma User_field_cases k :
  list_to_map (M := gmap string fields.t) (load_fields UserSchema) !! k = None \/
  k ∈ ["email"; "address"; "orders"; "id"; "name"].
Proof.
  destruct (list_to_map (load_fields UserSchema) !! k) as [f|] eqn:Hf; [right|left; done].
  apply elem_of_list_to_map_2 in Hf.
  apply (list_elem_of_fmap_2 fst) in Hf. exact Hf.
Qed.

(** A payload without the key [orders] is within the embedding. *)
Lemma User_no_collection partial m :
  m !! "orders" = None -> carries_collection UserSchema partial m = false.
Proof.
  intros Hm. unfold carries_collection. rewrite load_fields_User.
  cbn [existsb fst snd]. rewrite Hm.
  repeat match goal with
         | |- context [deserialize (fields.Scalar ?k ?o) ?p ?raw] =>
             let Hn := fresh in
             pose proof (deserialize_Scalar_not_Collection k o p raw) as Hn;
             destruct (deserialize (fields.Scalar k o) p raw); [| | |congruence]; clear Hn
         end; cbn [orb]; destruct partial; reflexivity.
Qed.



(** What the address field makes of a value, in either mode. *)
Lemma deserialize_address partial v :
  deserialize address_field partial (Some v)
  = match v with
    | PNone => Errors ["Field may not be null."]
    | PStr a => if address_ok a then Value (AStr a)
                else Errors ["Length must be between 5 and 150."]
    | _ => Errors ["Not a valid string."]
    end.
Proof.
  destruct v as [| | | |a| | |]; try reflexivity.
  change (deserialize address_field partial (Some (PStr a)))
    with (match run_validators Str [Length (Some 5%nat) (Some 150%nat)] (AStr a) with
          | [] => Value (AStr a)
          | l => Errors l
          end).
  unfold run_validators, run_validator, address_ok. cbn [map concat app].
  change (Length_message (Some 5%nat) (Some 150%nat))
    with "Length must be between 5 and 150.".
  destruct (Nat.ltb_spec (String.length a) 5), (Nat.ltb_spec 150 (String.length a));
    destruct (Nat.leb_spec 5 (String.length a)), (Nat.leb_spec (String.length a) 150);
    try lia; reflexivity.
Qed.

Local Tactic Notation "field_lookup" constr(k) :=
  let t := eval vm_compute in
    (list_to_map (M := gmap string fields.t) (load_fields UserSchema) !! k) in
  change (list_to_map (M := gmap string fields.t) (load_fields UserSchema) !! k) with t.

Lemma load_address_only v :
  load UserSchema true (PDict {[ "address" := v ]})
  = match deserialize address_field true (Some v) with
    | Value a => Valid {[ "address" := a ]}
    | Errors messages => Invalid {[ "address" := messages ]}
    | _ => Valid ∅
    end.
Proof.
  destruct (load_PDict UserSchema true {[ "address" := v ]})
    as (messages & data & Hm & Hd & ->).
  rewrite User_no_collection by done.
  assert (Hk : forall k, k <> "address" ->
            field_messages UserSchema true {[ "address" := v ]} k = [] /\
            data !! k = None).
  { intros k Hne. rewrite Hd. unfold field_messages.
    rewrite lookup_singleton_ne by done.
    destruct (User_field_cases k) as [-> | Hin]; [done|].
    repeat (apply elem_of_cons in Hin as [-> | Hin]);
      [ .. | apply elem_of_nil in Hin as [] ]; try done;
      match goal with
      | |- context [list_to_map (load_fields UserSchema) !! ?k] => field_lookup k
      end; done. }
  assert (Ha : field_messages UserSchema true {[ "address" := v ]} "address"
               = match deserialize address_field true (Some v) with
                 | Errors l => l
                 | _ => []
                 end /\
               data !! "address"
               = match deserialize address_field true (Some v) with
                 | Value a => Some a
                 | _ => None
                 end).
  { rewrite Hd. unfold field_messages. field_lookup "address".
    rewrite lookup_singleton_eq. done. }
  destruct Ha as [Ha Hda].
  pose proof (deserialize_Errors_nonempty address_field true (Some v)) as Hne.
  destruct (deserialize address_field true (Some v)) as [|a|l|] eqn:Hdes.
  - rewrite bool_decide_eq_true_2.
    + f_equal. apply map_eq. intros k. rewrite lookup_empty.
      destruct (decide (k = "address")) as [->|Hk']; [done|]. apply Hk, Hk'.
    + apply map_eq. intros k. rewrite Hm, lookup_empty.
      destruct (decide (k = "address")) as [->|Hk']; [by rewrite Ha|].
      by rewrite (proj1 (Hk k Hk')).
  - rewrite bool_decide_eq_true_2.
    + f_equal. apply map_eq. intros k.
      destruct (decide (k = "address")) as [->|Hk'].
      * by rewrite lookup_singleton_eq.
      * rewrite lookup_singleton_ne by done. apply Hk, Hk'.
    + apply map_eq. intros k. rewrite Hm, lookup_empty.
      destruct (decide (k = "address")) as [->|Hk']; [by rewrite Ha|].
      by rewrite (proj1 (Hk k Hk')).
  - assert (Hmsg : messages = {[ "address" := l ]}).
    { apply map_eq. intros k. rewrite Hm.
      destruct (decide (k = "address")) as [->|Hk'].
      - rewrite Ha, lookup_singleton_eq. destruct l; [congruence|done].
      - rewrite lookup_singleton_ne by done. by rewrite (proj1 (Hk k Hk')). }
    rewrite Hmsg, bool_decide_eq_false_2; [done|].
    intros Hempty. apply (f_equal (fun m => m !! "address")) in Hempty.
    rewrite lookup_singleton_eq, lookup_empty in Hempty. done.
  - exfalso. revert Hdes. apply deserialize_Scalar_not_Collection.
Qed.

Lemma update_user_invalid_address s user_id user v l :
  get_User s user_id = Some user ->
  deserialize address_field true (Some v) = Errors l ->
  update_user s user_id (PDict {[ "address" := v ]})
  = Some (Response (messages_body {[ "address" := l ]}) 400, s).
Proof.
  intros Hu Hd. unfold update_user.
  rewrite Hu, load_address_only, Hd, jsonify_messages_body. reflexivity.
Qed.

Lemma update_user_valid_address s user_id user a :
  get_User s user_id = Some user ->
  address_ok a = true ->
  let user' := User.mk (User.id user) (User.name user) a (User.email user) in
  exists s',
    update_user s user_id (PDict {[ "address" := PStr a ]})
    = Some (Response (User_json s' user') 200, s') /\
    get_User s' user_id = Some user' /\
    (forall i, i <> user_id -> get_User s' i = get_User s i) /\
    orders s' = orders s /\ products s' = products s /\
    order_product s' = order_product s /\
    (user' = user -> s' = s).
Proof.
  intros Hu Ha user'.
  pose proof (get_User_id _ _ _ Hu) as Hid.
  assert (Hsave : save_User s (Some user) {[ "address" := AStr a ]}
                  = (s'' ← update_User s user user'; Ok (user', s'')))
    by reflexivity.
  unfold update_user.
  rewrite Hu, load_address_only, deserialize_address, Ha, Hsave.
  unfold update_User.
  destruct (bool_decide (user' = user)) eqn:Heq.
  - apply bool_decide_eq_true in Heq.
    exists s. cbn [mbind result_bind]. rewrite jsonify_User.
    rewrite Heq. repeat split; try done.
  - apply bool_decide_eq_false in Heq.
    unfold set_fits, fits. cbn [User.name User.address User.email User.id user'].
    rewrite !String.eqb_refl, Z.eqb_refl. cbn [orb andb negb].
    assert (Hfit : (String.length a <=? 200)%nat = true).
    { unfold address_ok in Ha. apply andb_true_iff in Ha as [_ Ha].
      apply Nat.leb_le in Ha. apply Nat.leb_le. lia. }
    rewrite Hfit, orb_true_r. cbn [andb negb mbind result_bind].
    eexists. rewrite jsonify_User.
    split; [reflexivity|].
    unfold get_User. cbn [users set_users orders products order_product].
    repeat split; try done.
    + rewrite find_replace by done. rewrite Hid, Z.eqb_refl.
      fold (get_User s user_id). rewrite Hu. reflexivity.
    + intros i Hi. rewrite find_replace by done. rewrite Hid.
      destruct (Z.eqb_spec i user_id); [contradiction|reflexivity].
Qed.
End WriteFacts.

(** C4. A partial update whose body holds the address only: the user
    keeps its id, name and email, every other user and every other
    table is as before, and the same request on the resulting store
    answers the same and changes nothing. An address of 5 to 150
    characters becomes the address of the user and the answer is 200
    with the user; any other value leaves the store as it was and the
    answer is 400. *)
Theorem update_user_address_only `{Runtime} (s : store) (user_id : Z)
    (user : User.t) (v : pyval) :
  get_User s user_id = Some user ->
  exists (r : outcome) (s' : store) (user' : User.t),
    update_user s user_id (PDict {[ "address" := v ]}) = Some (r, s') /\
    update_user s' user_id (PDict {[ "address" := v ]}) = Some (r, s') /\
    get_User s' user_id = Some user' /\
    User.id user' = User.id user /\
    User.name user' = User.name user /\
    User.email user' = User.email user /\
    (forall i, i <> user_id -> get_User s' i = get_User s i) /\
    orders s' = orders s /\ products s' = products s /\
    order_product s' = order_product s /\
    match v with
    | PStr a =>
        if address_ok a
        then User.address user' = a /\ r = Response (User_json s' user') 200
        else s' = s /\ status_of r = 400
    | _ => s' = s /\ status_of r = 400
    end.
Proof.
  intros Hu.
  assert (Hbad : forall l, deserialize address_field true (Some v) = Errors l ->
            exists (r : outcome) (s' : store) (user' : User.t),
              update_user s user_id (PDict {[ "address" := v ]}) = Some (r, s') /\
              update_user s' user_id (PDict {[ "address" := v ]}) = Some (r, s') /\
              get_User s' user_id = Some user' /\
              User.id user' = User.id user /\
              User.name user' = User.name user /\
              User.email user' = User.email user /\
              (forall i, i <> user_id -> get_User s' i = get_User s i) /\
              orders s' = orders s /\ products s' = products s /\
              order_product s' = order_product s /\
              s' = s /\ status_of r = 400).
  { intros l Hl. exists (Response (messages_body {[ "address" := l ]}) 400), s, user.
    rewrite (update_user_invalid_address _ _ _ _ _ Hu Hl). repeat split; done. }
  pose proof (deserialize_address true v) as Hd.
  destruct v as [| | | |a| | |];
    try (destruct (Hbad _ Hd) as (r & s' & user' & H1 & H2 & H3 & H4 & H5 & H6 & H7 & H8
                                  & H9 & H10 & H11 & H12);
         exists r, s', user'; repeat split; assumption).
  destruct (address_ok a) eqn:Ha.
  - destruct (update_user_valid_address s user_id user a Hu Ha)
      as (s' & Hfirst & Hget & Hother & Ho & Hp & Hl & _).
    set (user' := User.mk (User.id user) (User.name user) a (User.email user)) in *.
    destruct (update_user_valid_address s' user_id user' a Hget Ha)
      as (s'' & Hsecond & _ & _ & _ & _ & _ & Hsame).
    specialize (Hsame eq_refl). subst s''.
    exists (Response (User_json s' user') 200), s', user'.
    repeat split; try assumption; reflexivity.
  - destruct (Hbad _ Hd) as (r & s' & user' & H1 & H2 & H3 & H4 & H5 & H6 & H7 & H8
                             & H9 & H10 & H11 & H12).
    exists r, s', user'. repeat split; assumption.
Qed.

Tactic Notation "user_field" constr(k) :=
  let t := eval vm_compute in
    (list_to_map (M := gmap string fields.t) (load_fields UserSchema) !! k) in
  change (list_to_map (M := gmap string fields.t) (load_fields UserSchema) !! k) with t.

(** The length of a supplied address is enforced, in either mode. *)
Lemma address_length_enforced `{Runtime} (partial : bool) (m : gmap string pyval)
    (a : string) :
  m !! "address" = Some (PStr a) ->
  m !! "orders" = None ->
  if address_ok a
  then field_messages UserSchema partial m "address" = []
  else exists messages,
      load UserSchema partial (PDict m) = Invalid messages /\
      messages !! "address" = Some ["Length must be between 5 and 150."].
Proof.
  intros Ha Ho.
  assert (Hf : field_messages UserSchema partial m "address"
               = if address_ok a then []
                 else ["Length must be between 5 and 150."]).
  { unfold field_messages. user_field "address".
    rewrite Ha, deserialize_address. destruct (address_ok a); reflexivity. }
  destruct (address_ok a); [exact Hf|].
  destruct (load_PDict UserSchema partial m) as (messages & data & Hm & _ & ->).
  rewrite User_no_collection by exact Ho.
  exists messages. specialize (Hm "address"). rewrite Hf in Hm.
  split; [|exact Hm].
  rewrite bool_decide_eq_false_2; [reflexivity|].
  intros ->. rewrite lookup_empty in Hm. discriminate.
Qed.

(** C2, as the code has it: a payload for POST /users that gives a name
    and a valid email and no address passes the load (the address
    field is declared without [required]); the handler then inserts a
    row without an address, the column refuses it, and the request
    ends in IntegrityError instead of a validation failure. *)
Theorem create_user_without_address `{Runtime} (s : store) (n e : string) :
  email_pattern e = true ->
  (String.length n <= 100)%nat ->
  load UserSchema false (PDict {[ "name" := PStr n; "email" := PStr e ]})
  = Valid {[ "name" := AStr n; "email" := AStr e ]} /\
  create_user s (PDict {[ "name" := PStr n; "email" := PStr e ]})
  = Some (Raised IntegrityError, s).
Proof.
  intros He Hn.
  set (m := ({[ "name" := PStr n; "email" := PStr e ]} : gmap string pyval)).
  assert (Hname : deserialize
                    (fields.Scalar Str (Kwargs true false [Length None (Some 100%nat)] false))
                    false (Some (PStr n)) = Value (AStr n)).
  { change (match run_validators Str [Length None (Some 100%nat)] (AStr n) with
            | [] => Value (AStr n)
            | l => Errors l
            end = Value (AStr n)).
    unfold run_validators, run_validator. cbn [map concat app orb].
    destruct (Nat.ltb_spec 100 (String.length n)); [lia|reflexivity]. }
  assert (Hemail : deserialize (fields.Scalar Email (Kwargs true false [] false))
                     false (Some (PStr e)) = Value (AStr e)).
  { change (match run_validators Email [] (AStr e) with
            | [] => Value (AStr e)
            | l => Errors l
            end = Value (AStr e)).
    unfold run_validators. rewrite He. reflexivity. }
  assert (Hload : load UserSchema false (PDict m)
                  = Valid {[ "name" := AStr n; "email" := AStr e ]}).
  { destruct (load_PDict UserSchema false m) as (messages & data & Hm & Hd & ->).
    rewrite User_no_collection by done.
    assert (Hk : forall k,
              field_messages UserSchema false m k = [] /\
              data !! k = ({[ "name" := AStr n; "email" := AStr e ]} : gmap string attr) !! k).
    { intros k. rewrite Hd. unfold field_messages.
      destruct (User_field_cases k) as [Hnone | Hin].
      - rewrite Hnone.
        assert (k <> "name" /\ k <> "email") as [H1 H2].
        { split; intros ->; vm_compute in Hnone; discriminate. }
        unfold m. rewrite !lookup_insert_ne, !lookup_singleton_ne by done. done.
      - repeat (apply elem_of_cons in Hin as [-> | Hin]);
          [ .. | apply elem_of_nil in Hin as [] ];
          match goal with
          | |- context [list_to_map (load_fields UserSchema) !! ?k] => user_field k
          end; unfold m;
          repeat first [ rewrite lookup_insert_eq | rewrite lookup_singleton_eq
                       | rewrite lookup_insert_ne by done
                       | rewrite lookup_singleton_ne by done ];
          rewrite ?Hname, ?Hemail; done. }
    rewrite bool_decide_eq_true_2.
    - f_equal. apply map_eq. intros k. apply Hk.
    - apply map_eq. intros k. rewrite Hm, (proj1 (Hk k)), lookup_empty. done. }
  split; [exact Hload|].
  unfold create_user. fold m. rewrite Hload. reflexivity.
Qed.


(** ** The theorems at work *)

#[local] Existing Instance plain_runtime.


Lemma create_user_without_address_witness :
  email_pattern "bob@example.com" = true /\
  (String.length "Bob" <= 100)%nat /\
  load UserSchema false (PDict {[ "name" := PStr "Bob"; "email" := PStr "bob@example.com" ]})
  = Valid {[ "name" := AStr "Bob"; "email" := AStr "bob@example.com" ]} /\
  create_user shop (PDict {[ "name" := PStr "Bob"; "email" := PStr "bob@example.com" ]})
  = Some (Raised IntegrityError, shop).
Proof.
  split; [reflexivity|]. split; [vm_compute; lia|].
  apply (create_user_without_address shop "Bob" "bob@example.com");
    [reflexivity | vm_compute; lia].
Defined.

Lemma add_product_to_order_idempotent_witness :
  exists s1,
    add_product_to_order shop 7 4 = (Response (Order_json s1 order7) 200, s1) /\
    add_product_to_order s1 7 4 = (Response (Order_json s1 order7) 200, s1) /\
    (((7, 4) ∈ order_product shop) -> s1 = shop) /\
    order_product_key s1 /\
    List.length (List.filter (fun q => Product.id q =? 4) (Order_products s1 order7))
    = 1%nat /\
    get_products_in_order s1 7
    = (Response (PList (map (Product_json s1) (Order_products s1 order7))) 200, s1).
Proof.
  apply (add_product_to_order_idempotent shop 7 4 order7 gadget);
    [reflexivity | reflexivity |].
  apply (bool_decide_unpack _). vm_compute. exact I.
Defined.

Lemma update_user_address_only_witness :
  exists (r : outcome) (s' : store) (user' : User.t),
    update_user shop 1 (PDict {[ "address" := PStr "12 High Street" ]}) = Some (r, s') /\
    update_user s' 1 (PDict {[ "address" := PStr "12 High Street" ]}) = Some (r, s') /\
    get_User s' 1 = Some user' /\
    User.id user' = User.id ann /\
    User.name user' = User.name ann /\
    User.email user' = User.email ann /\
    (forall i, i <> 1 -> get_User s' i = get_User shop i) /\
    orders s' = orders shop /\ products s' = products shop /\
    order_product s' = order_product shop /\
    User.address user' = "12 High Street" /\ r = Response (User_json s' user') 200.
Proof.
  apply (update_user_address_only shop 1 ann (PStr "12 High Street")). reflexivity.
Defined.

Lemma get_user_not_found_witness :
  get_User shop 9 = None /\
  get_user shop 9 = (Raised TypeError, shop) /\
  status_of (get_user shop 9).1 = 500.
Proof. split; [reflexivity|]. apply (get_user_not_found shop 9). reflexivity. Defined.


Lemma remove_unlinked_product_witness :
((7, 4) ∉ order_product shop) /\
  remove_product_from_order shop 7 4 = (Response (Order_json shop order7) 200, shop).
Proof.
  assert (Hn : (7, 4) ∉ order_product shop).
  { apply (bool_decide_unpack _). vm_compute. exact I. }
  split; [exact Hn|].
  apply (remove_unlinked_product shop 7 4 order7 gadget); [reflexivity | reflexivity | exact Hn].
Defined.

Lemma delete_not_found_witness :
  delete_product shop 9 = (Response (error_body "Product not found") 404, shop) /\
  delete_user shop 9 = (Response (error_body "User not found") 400, shop).
Proof. apply (delete_not_found shop 9 9); reflexivity. Defined.

Lemma link_routes_not_found_witness :
  add_product_to_order shop 9 3
  = (Response (error_body "Order or product not found") 400, shop) /\
  remove_product_from_order shop 7 9
  = (Response (error_body "Order or product not found") 404, shop).
Proof.
  split.
  - apply (link_routes_not_found shop 9 3). left. reflexivity.
  - apply (link_routes_not_found shop 7 9). right. reflexivity.
Defined.
